(** * Pricing resolution of the Codex usage calculator

    A shallow embedding of [apps/codex/src/pricing.ts]: the constants
    [CODEX_PROVIDER_PREFIXES] and [CODEX_MODEL_ALIASES_MAP], the helpers
    [toPerMillion] and [hasCompleteTokenPricing], and the three methods of
    [CodexPricingSource] ([getStrictPricing], [getRelaxedPricing],
    [getPricing]).

    JavaScript numbers are IEEE 754 binary64 values, so costs are primitive
    floats and [*] is [PrimFloat.mul].  A [Map<string, _>] is a [gmap string _].
    The [LiteLLMPricingFetcher] is an external collaborator: it is a state
    machine answering the two queries the resolver sends, and every query is
    logged in the order it is awaited. *)

From Stdlib Require Import PrimFloat.
From stdpp Require Import gmap strings list fin_maps.

Local Open Scope string_scope.
Local Open Scope list_scope.

(** ** Data *)

(** The fields of [LiteLLMModelPricing] that [pricing.ts] and its tests read
    or write.  A field that is [undefined] or [null] is [None]. *)
Record LiteLLMModelPricing : Type := {
  input_cost_per_token : option float;
  output_cost_per_token : option float;
  cache_read_input_token_cost : option float;
  max_tokens : option float;
  max_input_tokens : option float;
  max_output_tokens : option float;
}.

(** The object literal built at lines 105-112. *)
Record ModelPricing : Type := {
  inputCostPerMToken : float;
  cachedInputCostPerMToken : float;
  outputCostPerMToken : float;
}.

(** [Result] of [@praha/byethrow]. *)
Inductive Result (T E : Type) : Type :=
  | Success (value : T)
  | Failure (error : E).
Arguments Success {T E} value.
Arguments Failure {T E} error.

(** Modelled from the spec: the constant [MILLION] of [_consts.ts], which is
    not part of the sources at hand; the spec gives the factor as 1_000_000. *)
Definition MILLION : float := 1000000%float.

Definition CODEX_PROVIDER_PREFIXES : list string :=
  ["openai/"; "azure/"; "openrouter/openai/"].

Definition CODEX_MODEL_ALIASES_MAP : gmap string string :=
  list_to_map [("gpt-5-codex", "gpt-5"); ("gpt-5.3-codex", "gpt-5.2-codex")].

(** ** Pure helpers *)

(** [value ?? fallback ?? 0], line 16. *)
Definition perTokenOf (value fallback : option float) : float :=
  match value with
  | Some v => v
  | None => match fallback with
            | Some v => v
            | None => 0%float
            end
  end.

Definition toPerMillion (value fallback : option float) : float :=
  let perToken := perTokenOf value fallback in
  PrimFloat.mul perToken MILLION.

(** [x != null]. *)
Definition notNull {A : Type} (x : option A) : bool :=
  match x with
  | Some _ => true
  | None => false
  end.

(** Lines 20-27; [pricing?.f != null] is false when [pricing] is null. *)
Definition hasCompleteTokenPricing (pricing : option LiteLLMModelPricing) : bool :=
  match pricing with
  | Some p => notNull (input_cost_per_token p) && notNull (output_cost_per_token p)
  | None => false
  end.

(** The candidate keys of line 59. *)
Definition candidateKeys (model : string) : list string :=
  model :: map (λ prefix, prefix +:+ model) CODEX_PROVIDER_PREFIXES.

(** The loop of lines 60-67: the first candidate the map has an entry for. *)
Fixpoint firstPresent (pricingMap : gmap string LiteLLMModelPricing)
    (candidates : list string) : option LiteLLMModelPricing :=
  match candidates with
  | [] => None
  | candidate :: rest =>
      match pricingMap !! candidate with
      | Some pricing => Some pricing
      | None => firstPresent pricingMap rest
      end
  end.

(** The conversion of lines 105-112, for an entry that passed the guard. *)
Definition toModelPricing (pricing : LiteLLMModelPricing) : ModelPricing :=
  {| inputCostPerMToken := toPerMillion (input_cost_per_token pricing) None;
     cachedInputCostPerMToken :=
       toPerMillion (cache_read_input_token_cost pricing)
                    (input_cost_per_token pricing);
     outputCostPerMToken := toPerMillion (output_cost_per_token pricing) None |}.

(** ** The fetcher and the awaiting computations *)

(** The two methods of [LiteLLMPricingFetcher] the resolver calls.  [St] is
    whatever the fetcher keeps between calls (cache, network), [Err] the
    error values its failed results carry. *)
Record LiteLLMPricingFetcher (Err St : Type) : Type := {
  fetchModelPricing :
    St → Result (gmap string LiteLLMModelPricing) Err * St;
  getModelPricing :
    string → St → Result (option LiteLLMModelPricing) Err * St;
}.
Arguments fetchModelPricing {Err St} _ _.
Arguments getModelPricing {Err St} _ _ _.

(** What the resolver can throw: the fetcher's error as it is (lines 55, 73)
    or a fresh [Error] with a message (line 102). *)
Inductive Thrown (Err : Type) : Type :=
  | Rethrown (error : Err)
  | NewError (message : string).
Arguments Rethrown {Err} error.
Arguments NewError {Err} message.

(** One awaited fetcher call together with its answer. *)
Inductive Call (Err : Type) : Type :=
  | CallFetchModelPricing (answer : Result (gmap string LiteLLMModelPricing) Err)
  | CallGetModelPricing (model : string)
                        (answer : Result (option LiteLLMModelPricing) Err).
Arguments CallFetchModelPricing {Err} answer.
Arguments CallGetModelPricing {Err} model answer.

Record World (Err St : Type) : Type := {
  fetcher_state : St;
  calls : list (Call Err);
}.
Arguments fetcher_state {Err St} _.
Arguments calls {Err St} _.

Inductive Outcome (Err A : Type) : Type :=
  | Returned (value : A)
  | Threw (thrown : Thrown Err).
Arguments Returned {Err A} value.
Arguments Threw {Err A} thrown.

(** An [async] body: it runs from a world to an outcome and a new world. *)
Definition Async (Err St A : Type) : Type :=
  World Err St → Outcome Err A * World Err St.

Section Resolver.
Context {Err St : Type}.
Variable fetcher : LiteLLMPricingFetcher Err St.

Local Abbreviation M := (Async Err St).

Definition ret {A} (a : A) : M A := λ w, (Returned a, w).

Definition throw {A} (t : Thrown Err) : M A := λ w, (Threw t, w).

Definition bind {A B} (c : M A) (k : A → M B) : M B :=
  λ w, match c w with
       | (Returned a, w') => k a w'
       | (Threw t, w') => (Threw t, w')
       end.

Local Notation "x <~ c ;; k" := (bind c (λ x, k))
  (at level 100, c at level 99, k at level 200, right associativity).

Definition awaitFetchModelPricing
    : M (Result (gmap string LiteLLMModelPricing) Err) :=
  λ w, let (answer, s) := fetchModelPricing fetcher (fetcher_state w) in
       (Returned answer,
        {| fetcher_state := s;
           calls := calls w ++ [CallFetchModelPricing answer] |}).

Definition awaitGetModelPricing (model : string)
    : M (Result (option LiteLLMModelPricing) Err) :=
  λ w, let (answer, s) := getModelPricing fetcher model (fetcher_state w) in
       (Returned answer,
        {| fetcher_state := s;
           calls := calls w ++ [CallGetModelPricing model answer] |}).

(** Lines 52-68. *)
Definition getStrictPricing (model : string)
    : M (option LiteLLMModelPricing) :=
  pricingLookup <~ awaitFetchModelPricing ;;
  match pricingLookup with
  | Failure error => throw (Rethrown error)
  | Success pricingMap =>
      let candidates := candidateKeys model in
      ret (firstPresent pricingMap candidates)
  end.

(** Lines 70-76. *)
Definition getRelaxedPricing (model : string)
    : M (option LiteLLMModelPricing) :=
  lookup <~ awaitGetModelPricing model ;;
  match lookup with
  | Failure error => throw (Rethrown error)
  | Success value => ret value
  end.

(** Lines 79-99 of [getPricing]: the value of the variable [pricing] when
    control reaches line 101. *)
Definition selectPricing (model : string)
    : M (option LiteLLMModelPricing) :=
  pricing <~ getStrictPricing model ;;
  pricing <~
    (if negb (hasCompleteTokenPricing pricing) then
       match CODEX_MODEL_ALIASES_MAP !! model with
       | Some alias =>
           aliasPricing <~ getStrictPricing alias ;;
           aliasPricing <~
             (if negb (hasCompleteTokenPricing aliasPricing)
              then getRelaxedPricing alias
              else ret aliasPricing) ;;
           ret (if hasCompleteTokenPricing aliasPricing
                then aliasPricing else pricing)
       | None => ret pricing
       end
     else ret pricing) ;;
  if negb (hasCompleteTokenPricing pricing) then
    relaxedPricing <~ getRelaxedPricing model ;;
    ret (if hasCompleteTokenPricing relaxedPricing
         then relaxedPricing else pricing)
  else ret pricing.

(** Lines 101-112: the guard and the conversion.  The type guard narrows
    [pricing] to a non-null entry, so the [None] branch below the guard is
    never taken ([hasCompleteTokenPricing None = false]). *)
Definition convertPricing (model : string)
    (pricing : option LiteLLMModelPricing) : M ModelPricing :=
  if negb (hasCompleteTokenPricing pricing) then
    throw (NewError ("Pricing not found for model " +:+ model))
  else
    match pricing with
    | Some pricing => ret (toModelPricing pricing)
    | None => throw (NewError ("Pricing not found for model " +:+ model))
    end.

(** Lines 78-113. *)
Definition getPricing (model : string) : M ModelPricing :=
  pricing <~ selectPricing model ;;
  convertPricing model pricing.

(** A call of a method on a source whose fetcher is in state [s]. *)
Definition run {A} (c : M A) (s : St) : Outcome Err A * World Err St :=
  c {| fetcher_state := s; calls := [] |}.

End Resolver.

(** ** Reading the log of fetcher calls *)

Inductive CallKind : Type :=
  | FetchModelPricing
  | GetModelPricing (model : string).

Definition callKind {Err : Type} (c : Call Err) : CallKind :=
  match c with
  | CallFetchModelPricing _ => FetchModelPricing
  | CallGetModelPricing model _ => GetModelPricing model
  end.

(** The error of a call the fetcher answered with a failure. *)
Definition callError {Err : Type} (c : Call Err) : option Err :=
  match c with
  | CallFetchModelPricing (Failure error) => Some error
  | CallGetModelPricing _ (Failure error) => Some error
  | _ => None
  end.

(** [answersEntry c pricing]: the fetcher handed [pricing] to the resolver in
    the answer to [c], as a value of the batch map or as the single entry of a
    relaxed lookup. *)
Definition answersEntry {Err : Type} (c : Call Err)
    (pricing : LiteLLMModelPricing) : Prop :=
  match c with
  | CallFetchModelPricing (Success pricingMap) =>
      ∃ key, pricingMap !! key = Some pricing
  | CallGetModelPricing _ (Success (Some value)) => value = pricing
  | _ => False
  end.

(** The fetcher calls of lines 79-99 in program order: the strict lookup of
    the model, then for an aliased model the strict and the relaxed lookup of
    the alias, then the relaxed lookup of the model. *)
Definition plannedCalls (model : string) : list CallKind :=
  FetchModelPricing
  :: match CODEX_MODEL_ALIASES_MAP !! model with
     | Some alias => [FetchModelPricing; GetModelPricing alias]
     | None => []
     end
  ++ [GetModelPricing model].

(** [toPerMillion value fallback] takes the literal [0] of line 16. *)
Definition usesZeroDefault (value fallback : option float) : bool :=
  negb (notNull value) && negb (notNull fallback).

(** ** Fetchers for concrete runs *)

(** A fetcher that never fails: a fixed catalog, as the [offlineLoader] of the
    unit tests supplies, and a table of answers to the single-model query. *)
Definition offlineFetcher (catalog : gmap string LiteLLMModelPricing)
    (relaxed : string → option LiteLLMModelPricing)
    : LiteLLMPricingFetcher string unit :=
  {| fetchModelPricing := λ s, (Success catalog, s);
     getModelPricing := λ model s, (Success (relaxed model), s) |}.

(** A fetcher that replays a script, one reply per call; a call the script did
    not foresee fails. *)
Inductive Reply : Type :=
  | ReplyBatch (answer : Result (gmap string LiteLLMModelPricing) string)
  | ReplySingle (answer : Result (option LiteLLMModelPricing) string).

Definition scriptedFetcher : LiteLLMPricingFetcher string (list Reply) :=
  {| fetchModelPricing := λ s,
       match s with
       | ReplyBatch answer :: rest => (answer, rest)
       | _ :: rest => (Failure "unexpected fetchModelPricing", rest)
       | [] => (Failure "script exhausted", [])
       end;
     getModelPricing := λ _ s,
       match s with
       | ReplySingle answer :: rest => (answer, rest)
       | _ :: rest => (Failure "unexpected getModelPricing", rest)
       | [] => (Failure "script exhausted", [])
       end |}.

(** An entry with cost fields only, and one with token limits only. *)
Definition costEntry (input output : float) (cacheRead : option float)
    : LiteLLMModelPricing :=
  {| input_cost_per_token := Some input;
     output_cost_per_token := Some output;
     cache_read_input_token_cost := cacheRead;
     max_tokens := None; max_input_tokens := None; max_output_tokens := None |}.

Definition limitsEntry (limit : float) : LiteLLMModelPricing :=
  {| input_cost_per_token := None;
     output_cost_per_token := None;
     cache_read_input_token_cost := None;
     max_tokens := Some limit;
     max_input_tokens := Some limit;
     max_output_tokens := Some limit |}.

(** The decimal literals of the unit tests; as in JavaScript each denotes
    the nearest binary64 value. *)
#[local] Set Warnings "-inexact-float".

Definition gpt5Entry : LiteLLMModelPricing :=
  costEntry 1.25e-6%float 1e-5%float (Some 1.25e-7%float).

Definition gpt52CodexEntry : LiteLLMModelPricing :=
  costEntry 1.5e-6%float 1.2e-5%float (Some 1.5e-7%float).

(** The catalogs of the three unit tests (lines 121-127, 139-150, 162-173). *)
Definition catalogTest1 : gmap string LiteLLMModelPricing :=
  {[ "gpt-5" := gpt5Entry ]}.

Definition catalogTest2 : gmap string LiteLLMModelPricing :=
  {[ "gpt-5" := gpt5Entry; "gpt-5.2-codex" := gpt52CodexEntry ]}.

Definition catalogTest3 : gmap string LiteLLMModelPricing :=
  {[ "gpt-5.3-codex" := limitsEntry 128000%float;
     "gpt-5.2-codex" := gpt52CodexEntry ]}.

Definition noRelaxed : string → option LiteLLMModelPricing := λ _, None.

(** Further catalogs and scripts, for runs along the other paths. *)

Definition catalogEmpty : gmap string LiteLLMModelPricing := ∅.

Definition catalogLimitsOnly : gmap string LiteLLMModelPricing :=
  {[ "gpt-5.3-codex" := limitsEntry 128000%float ]}.

Definition catalogPrefixedGpt4 : gmap string LiteLLMModelPricing :=
  {[ "openai/gpt-4" := costEntry 3e-5%float 6e-5%float None ]}.

Definition catalogShadowedGpt4 : gmap string LiteLLMModelPricing :=
  {[ "gpt-4" := limitsEntry 8192%float;
     "openai/gpt-4" := costEntry 3e-5%float 6e-5%float None ]}.

Definition catalogPrefixedCodex : gmap string LiteLLMModelPricing :=
  {[ "azure/gpt-5-codex" := costEntry 2e-6%float 8e-6%float None;
     "gpt-5" := gpt5Entry ]}.

(** The entry of the model has a cache-read cost and nothing else; the entry
    of its alias has an input and an output cost and no cache-read cost. *)
Definition catalogSplitFields : gmap string LiteLLMModelPricing :=
  {[ "gpt-5.3-codex" :=
       {| input_cost_per_token := None;
          output_cost_per_token := None;
          cache_read_input_token_cost := Some 9e-7%float;
          max_tokens := None; max_input_tokens := None;
          max_output_tokens := None |};
     "gpt-5.2-codex" := costEntry 1.5e-6%float 1.2e-5%float None ]}.

(** Every lookup answers, none with a complete entry. *)
Definition scriptAllIncomplete : list Reply :=
  [ReplyBatch (Success catalogLimitsOnly);
   ReplyBatch (Success catalogLimitsOnly);
   ReplySingle (Success None);
   ReplySingle (Success (Some (limitsEntry 128000%float)))].

(** Only the last lookup, the relaxed one of the model, finds costs. *)
Definition scriptRelaxedHit : list Reply :=
  [ReplyBatch (Success catalogLimitsOnly);
   ReplyBatch (Success catalogLimitsOnly);
   ReplySingle (Success None);
   ReplySingle (Success (Some gpt5Entry))].

(** The relaxed lookup of the alias finds costs. *)
Definition scriptAliasRelaxedHit : list Reply :=
  [ReplyBatch (Success catalogLimitsOnly);
   ReplyBatch (Success catalogLimitsOnly);
   ReplySingle (Success (Some gpt52CodexEntry));
   ReplySingle (Success (Some gpt5Entry))].

(** The relaxed lookup of the alias fails; more replies would be ready. *)
Definition scriptAliasRelaxedFails : list Reply :=
  [ReplyBatch (Success catalogLimitsOnly);
   ReplyBatch (Success catalogLimitsOnly);
   ReplySingle (Failure "ECONNRESET");
   ReplySingle (Success (Some gpt5Entry))].

(** The call is a relaxed lookup that was answered with a complete entry. *)
Definition relaxedAnswerComplete {Err : Type} (c : Call Err) : bool :=
  match c with
  | CallGetModelPricing _ (Success value) => hasCompleteTokenPricing value
  | _ => false
  end.

(** A catalog with a model that costs nothing. *)
Definition catalogFree : gmap string LiteLLMModelPricing :=
  {[ "gpt-oss" := costEntry 0%float 0%float None;
     "gpt-5" := costEntry 1.25e-6%float 1e-5%float (Some 0%float) ]}.

(** * Properties *)

(** ** The unit tests of [pricing.ts], replayed *)

Example test_converts_to_per_million :
  (run (getPricing (offlineFetcher catalogTest1 noRelaxed) "gpt-5-codex") ()).1
  = Returned {| inputCostPerMToken := 1.25%float;
                cachedInputCostPerMToken := 0.125%float;
                outputCostPerMToken := 10%float |}.
Proof. vm_compute. reflexivity. Qed.

Example test_falls_back_when_missing :
  (run (getPricing (offlineFetcher catalogTest2 noRelaxed) "gpt-5.3-codex") ()).1
  = Returned {| inputCostPerMToken := 1.5%float;
                cachedInputCostPerMToken := 0.15%float;
                outputCostPerMToken := 12%float |}.
Proof. vm_compute. reflexivity. Qed.

Example test_falls_back_when_no_token_rates :
  (run (getPricing (offlineFetcher catalogTest3 noRelaxed) "gpt-5.3-codex") ()).1
  = Returned {| inputCostPerMToken := 1.5%float;
                cachedInputCostPerMToken := 0.15%float;
                outputCostPerMToken := 12%float |}.
Proof. vm_compute. reflexivity. Qed.

(** ** The pure helpers *)

Lemma candidateKeys_unfold model :
  candidateKeys model
  = [model; "openai/" +:+ model; "azure/" +:+ model;
     "openrouter/openai/" +:+ model].
Proof. reflexivity. Qed.

Lemma firstPresent_Some pricingMap candidates pricing :
  firstPresent pricingMap candidates = Some pricing
  ↔ ∃ i key, candidates !! i = Some key
             ∧ pricingMap !! key = Some pricing
             ∧ ∀ j key', j < i → candidates !! j = Some key' →
                         pricingMap !! key' = None.
Proof.
  induction candidates as [|candidate rest IH]; cbn.
  - split; [discriminate|]. by intros (i & key & Hi & _).
  - destruct (pricingMap !! candidate) as [found|] eqn:Hfound.
    + split.
      * intros [= <-]. exists 0, candidate. repeat split; [done|]. lia.
      * intros (i & key & Hi & Hkey & Hbefore). destruct i as [|i].
        -- cbn in Hi. congruence.
        -- specialize (Hbefore 0 candidate). cbn in Hbefore.
           rewrite Hbefore in Hfound; [done|lia|done].
    + rewrite IH. split.
      * intros (i & key & Hi & Hkey & Hbefore).
        exists (S i), key. repeat split; [done..|].
        intros [|j] key' Hj Hlookup; cbn in Hlookup.
        -- congruence.
        -- apply (Hbefore j); [lia|done].
      * intros (i & key & Hi & Hkey & Hbefore). destruct i as [|i].
        -- cbn in Hi. congruence.
        -- exists i, key. repeat split; [done..|].
           intros j key' Hj Hlookup. apply (Hbefore (S j)); [lia|done].
Qed.

Lemma firstPresent_None pricingMap candidates :
  firstPresent pricingMap candidates = None
  ↔ ∀ key, key ∈ candidates → pricingMap !! key = None.
Proof.
  induction candidates as [|candidate rest IH]; cbn.
  - split; [|done]. intros _ key Hkey. by apply elem_of_nil in Hkey.
  - destruct (pricingMap !! candidate) as [found|] eqn:Hfound.
    + split; [discriminate|]. intros Hall.
      rewrite Hall in Hfound; [done|]. apply elem_of_cons. by left.
    + rewrite IH. split.
      * intros Hall key [->|Hkey]%elem_of_cons; [done|]. by apply Hall.
      * intros Hall key Hkey. apply Hall, elem_of_cons. by right.
Qed.

(** The bare name is the first candidate. *)
Lemma firstPresent_bare pricingMap model pricing :
  pricingMap !! model = Some pricing →
  firstPresent pricingMap (candidateKeys model) = Some pricing.
Proof. intros H. cbn. by rewrite H. Qed.

Lemma toModelPricing_fields p i o :
  input_cost_per_token p = Some i →
  output_cost_per_token p = Some o →
  toModelPricing p
  = {| inputCostPerMToken := PrimFloat.mul i MILLION;
       cachedInputCostPerMToken :=
         PrimFloat.mul (default i (cache_read_input_token_cost p)) MILLION;
       outputCostPerMToken := PrimFloat.mul o MILLION |}.
Proof.
  intros Hi Ho. unfold toModelPricing, toPerMillion, perTokenOf.
  rewrite Hi, Ho. by destruct (cache_read_input_token_cost p).
Qed.

(** ** Stepping through a run *)

Ltac unfold_resolver :=
  unfold run, getPricing, convertPricing, selectPricing, getStrictPricing,
    getRelaxedPricing, awaitFetchModelPricing, awaitGetModelPricing,
    bind, ret, throw.

Ltac reduce_run := cbn [fetcher_state calls app negb fst snd].

(** Follow the run along the answers the hypotheses fix. *)
Ltac follow_run :=
  repeat (match goal with
          | H : fetchModelPricing _ ?s = _
            |- context [fetchModelPricing _ ?s] => rewrite H
          | H : getModelPricing _ ?m ?s = _
            |- context [getModelPricing _ ?m ?s] => rewrite H
          | H : hasCompleteTokenPricing ?p = _
            |- context [hasCompleteTokenPricing ?p] => rewrite H
          | H : CODEX_MODEL_ALIASES_MAP !! ?m = _
            |- context [CODEX_MODEL_ALIASES_MAP !! ?m] => rewrite H
          end; reduce_run).

(** Split the run on every answer and every test it depends on. *)
Ltac split_run :=
  repeat (match goal with
          | |- context [fetchModelPricing ?f ?s] =>
              destruct (fetchModelPricing f s) as [[?|?] ?] eqn:?
          | |- context [getModelPricing ?f ?m ?s] =>
              destruct (getModelPricing f m s) as [[?|?] ?] eqn:?
          | |- context [CODEX_MODEL_ALIASES_MAP !! ?m] =>
              destruct (CODEX_MODEL_ALIASES_MAP !! m) eqn:?
          | H : hasCompleteTokenPricing ?p = _
            |- context [hasCompleteTokenPricing ?p] => rewrite H
          | |- context [hasCompleteTokenPricing ?p] =>
              lazymatch p with
              | context [hasCompleteTokenPricing _] => fail
              | _ => destruct (hasCompleteTokenPricing p) eqn:?
              end
          end; reduce_run).

Section Paths.
Context {Err St : Type}.
Variable fetcher : LiteLLMPricingFetcher Err St.

(** What a strict lookup of [model] returns when the batch fetch answers [m]. *)
Local Abbreviation strict m model := (firstPresent m (candidateKeys model)).

(** The five ways [selectPricing] runs to the end without a fetcher error. *)

Lemma select_strict_hit model s0 m1 s1 :
  fetchModelPricing fetcher s0 = (Success m1, s1) →
  hasCompleteTokenPricing (strict m1 model) = true →
  run (selectPricing fetcher model) s0
  = (Returned (strict m1 model),
     {| fetcher_state := s1; calls := [CallFetchModelPricing (Success m1)] |}).
Proof. intros. unfold_resolver. reduce_run. follow_run. reflexivity. Qed.

Lemma select_alias_strict_hit model alias s0 m1 s1 m2 s2 :
  CODEX_MODEL_ALIASES_MAP !! model = Some alias →
  fetchModelPricing fetcher s0 = (Success m1, s1) →
  hasCompleteTokenPricing (strict m1 model) = false →
  fetchModelPricing fetcher s1 = (Success m2, s2) →
  hasCompleteTokenPricing (strict m2 alias) = true →
  run (selectPricing fetcher model) s0
  = (Returned (strict m2 alias),
     {| fetcher_state := s2;
        calls := [CallFetchModelPricing (Success m1);
                  CallFetchModelPricing (Success m2)] |}).
Proof. intros. unfold_resolver. reduce_run. follow_run. reflexivity. Qed.

Lemma select_alias_relaxed_hit model alias s0 m1 s1 m2 s2 r3 s3 :
  CODEX_MODEL_ALIASES_MAP !! model = Some alias →
  fetchModelPricing fetcher s0 = (Success m1, s1) →
  hasCompleteTokenPricing (strict m1 model) = false →
  fetchModelPricing fetcher s1 = (Success m2, s2) →
  hasCompleteTokenPricing (strict m2 alias) = false →
  getModelPricing fetcher alias s2 = (Success r3, s3) →
  hasCompleteTokenPricing r3 = true →
  run (selectPricing fetcher model) s0
  = (Returned r3,
     {| fetcher_state := s3;
        calls := [CallFetchModelPricing (Success m1);
                  CallFetchModelPricing (Success m2);
                  CallGetModelPricing alias (Success r3)] |}).
Proof. intros. unfold_resolver. reduce_run. follow_run. reflexivity. Qed.

Lemma select_alias_miss model alias s0 m1 s1 m2 s2 r3 s3 r4 s4 :
  CODEX_MODEL_ALIASES_MAP !! model = Some alias →
  fetchModelPricing fetcher s0 = (Success m1, s1) →
  hasCompleteTokenPricing (strict m1 model) = false →
  fetchModelPricing fetcher s1 = (Success m2, s2) →
  hasCompleteTokenPricing (strict m2 alias) = false →
  getModelPricing fetcher alias s2 = (Success r3, s3) →
  hasCompleteTokenPricing r3 = false →
  getModelPricing fetcher model s3 = (Success r4, s4) →
  run (selectPricing fetcher model) s0
  = (Returned (if hasCompleteTokenPricing r4 then r4 else strict m1 model),
     {| fetcher_state := s4;
        calls := [CallFetchModelPricing (Success m1);
                  CallFetchModelPricing (Success m2);
                  CallGetModelPricing alias (Success r3);
                  CallGetModelPricing model (Success r4)] |}).
Proof. intros. unfold_resolver. reduce_run. follow_run. reflexivity. Qed.

Lemma select_no_alias model s0 m1 s1 r4 s4 :
  CODEX_MODEL_ALIASES_MAP !! model = None →
  fetchModelPricing fetcher s0 = (Success m1, s1) →
  hasCompleteTokenPricing (strict m1 model) = false →
  getModelPricing fetcher model s1 = (Success r4, s4) →
  run (selectPricing fetcher model) s0
  = (Returned (if hasCompleteTokenPricing r4 then r4 else strict m1 model),
     {| fetcher_state := s4;
        calls := [CallFetchModelPricing (Success m1);
                  CallGetModelPricing model (Success r4)] |}).
Proof. intros. unfold_resolver. reduce_run. follow_run. reflexivity. Qed.

(** The guard and the conversion of lines 101-112 call nothing. *)

Lemma getPricing_run model s0 :
  run (getPricing fetcher model) s0
  = match run (selectPricing fetcher model) s0 with
    | (Returned pricing, w) => convertPricing model pricing w
    | (Threw t, w) => (Threw t, w)
    end.
Proof. reflexivity. Qed.

Lemma complete_inv pricing :
  hasCompleteTokenPricing pricing = true →
  ∃ p i o, pricing = Some p
           ∧ input_cost_per_token p = Some i
           ∧ output_cost_per_token p = Some o.
Proof.
  destruct pricing as [p|]; [|discriminate]. cbn.
  destruct (input_cost_per_token p) as [i|] eqn:Hi; [|discriminate].
  destruct (output_cost_per_token p) as [o|] eqn:Ho; [|discriminate].
  intros _. by exists p, i, o.
Qed.

Lemma convertPricing_complete model p (w : World Err St) :
  hasCompleteTokenPricing (Some p) = true →
  convertPricing model (Some p) w = (Returned (toModelPricing p), w).
Proof. intros H. unfold convertPricing. rewrite H. reflexivity. Qed.

Lemma convertPricing_incomplete model pricing (w : World Err St) :
  hasCompleteTokenPricing pricing = false →
  convertPricing model pricing w
  = (Threw (NewError ("Pricing not found for model " +:+ model)), w).
Proof. intros H. unfold convertPricing. rewrite H. reflexivity. Qed.

Lemma getPricing_calls model s0 :
  (run (getPricing fetcher model) s0).2 = (run (selectPricing fetcher model) s0).2.
Proof.
  rewrite getPricing_run.
  destruct (run (selectPricing fetcher model) s0) as [[pricing|t] w]; [|done].
  unfold convertPricing.
  destruct (hasCompleteTokenPricing pricing); [|done].
  by destruct pricing.
Qed.

Lemma selectPricing_order model s0 :
  ∃ n, callKind <$> calls (run (selectPricing fetcher model) s0).2
       = take n (plannedCalls model).
Proof.
  unfold plannedCalls. unfold_resolver. reduce_run. split_run.
  all: first [ by exists 1 | by exists 2 | by exists 3 | by exists 4 ].
Qed.

(** C1. Tie-break rule.  The fetcher calls of a resolution are an initial
    segment of: strict lookup of the model, strict lookup of the alias,
    relaxed lookup of the alias, relaxed lookup of the model (the two alias
    lookups only for a model in the alias table); the guard and the conversion
    add no call.  The variable [pricing] ends as the first complete result in
    that order, and no later lookup is made once a complete result is there:
    a complete strict result ends the run after one call, a complete alias
    result ends it before the relaxed lookup of the model.  A later result
    that is incomplete or null leaves [pricing] at the strict result of the
    model. *)
Theorem tie_break_rule model s0 :
  (∃ n, callKind <$> calls (run (getPricing fetcher model) s0).2
        = take n (plannedCalls model))
  ∧ (∀ m1 s1,
       fetchModelPricing fetcher s0 = (Success m1, s1) →
       hasCompleteTokenPricing (strict m1 model) = true →
       run (selectPricing fetcher model) s0
       = (Returned (strict m1 model),
          {| fetcher_state := s1;
             calls := [CallFetchModelPricing (Success m1)] |}))
  ∧ (∀ alias m1 s1 m2 s2,
       CODEX_MODEL_ALIASES_MAP !! model = Some alias →
       fetchModelPricing fetcher s0 = (Success m1, s1) →
       hasCompleteTokenPricing (strict m1 model) = false →
       fetchModelPricing fetcher s1 = (Success m2, s2) →
       hasCompleteTokenPricing (strict m2 alias) = true →
       run (selectPricing fetcher model) s0
       = (Returned (strict m2 alias),
          {| fetcher_state := s2;
             calls := [CallFetchModelPricing (Success m1);
                       CallFetchModelPricing (Success m2)] |}))
  ∧ (∀ alias m1 s1 m2 s2 r3 s3,
       CODEX_MODEL_ALIASES_MAP !! model = Some alias →
       fetchModelPricing fetcher s0 = (Success m1, s1) →
       hasCompleteTokenPricing (strict m1 model) = false →
       fetchModelPricing fetcher s1 = (Success m2, s2) →
       hasCompleteTokenPricing (strict m2 alias) = false →
       getModelPricing fetcher alias s2 = (Success r3, s3) →
       hasCompleteTokenPricing r3 = true →
       run (selectPricing fetcher model) s0
       = (Returned r3,
          {| fetcher_state := s3;
             calls := [CallFetchModelPricing (Success m1);
                       CallFetchModelPricing (Success m2);
                       CallGetModelPricing alias (Success r3)] |}))
  ∧ (∀ alias m1 s1 m2 s2 r3 s3 r4 s4,
       CODEX_MODEL_ALIASES_MAP !! model = Some alias →
       fetchModelPricing fetcher s0 = (Success m1, s1) →
       hasCompleteTokenPricing (strict m1 model) = false →
       fetchModelPricing fetcher s1 = (Success m2, s2) →
       hasCompleteTokenPricing (strict m2 alias) = false →
       getModelPricing fetcher alias s2 = (Success r3, s3) →
       hasCompleteTokenPricing r3 = false →
       getModelPricing fetcher model s3 = (Success r4, s4) →
       run (selectPricing fetcher model) s0
       = (Returned (if hasCompleteTokenPricing r4 then r4 else strict m1 model),
          {| fetcher_state := s4;
             calls := [CallFetchModelPricing (Success m1);
                       CallFetchModelPricing (Success m2);
                       CallGetModelPricing alias (Success r3);
                       CallGetModelPricing model (Success r4)] |}))
  ∧ (∀ m1 s1 r4 s4,
       CODEX_MODEL_ALIASES_MAP !! model = None →
       fetchModelPricing fetcher s0 = (Success m1, s1) →
       hasCompleteTokenPricing (strict m1 model) = false →
       getModelPricing fetcher model s1 = (Success r4, s4) →
       run (selectPricing fetcher model) s0
       = (Returned (if hasCompleteTokenPricing r4 then r4 else strict m1 model),
          {| fetcher_state := s4;
             calls := [CallFetchModelPricing (Success m1);
                       CallGetModelPricing model (Success r4)] |})).
Proof.
  split; [rewrite getPricing_calls; apply selectPricing_order|].
  repeat split; intros.
  - by apply select_strict_hit.
  - by eapply select_alias_strict_hit.
  - by eapply select_alias_relaxed_hit.
  - by eapply select_alias_miss.
  - by eapply select_no_alias.
Qed.

(** C2. Alias fallback.  For a model in the alias table whose strict result
    is not complete, the second fetcher call is the batch fetch of the strict
    lookup of the alias, and when that result is not complete either the third
    call is the relaxed lookup of the alias.  A complete entry from either
    lookup is the entry that is converted and returned, in place of the
    incomplete strict result of the model.  So it is for ["gpt-5.3-codex"]
    when its own entry is incomplete (token limits only) and
    ["gpt-5.2-codex"] has a complete entry. *)
Theorem alias_fallback :
  (∀ model alias s0 m1 s1,
     CODEX_MODEL_ALIASES_MAP !! model = Some alias →
     fetchModelPricing fetcher s0 = (Success m1, s1) →
     hasCompleteTokenPricing (strict m1 model) = false →
     (∃ answer rest,
        calls (run (getPricing fetcher model) s0).2
        = CallFetchModelPricing (Success m1)
          :: CallFetchModelPricing answer :: rest
        ∧ answer = (fetchModelPricing fetcher s1).1)
     ∧ (∀ m2 s2,
          fetchModelPricing fetcher s1 = (Success m2, s2) →
          hasCompleteTokenPricing (strict m2 alias) = false →
          ∃ answer rest,
            calls (run (getPricing fetcher model) s0).2
            = CallFetchModelPricing (Success m1)
              :: CallFetchModelPricing (Success m2)
              :: CallGetModelPricing alias answer :: rest
            ∧ answer = (getModelPricing fetcher alias s2).1)
     ∧ (∀ m2 s2 p,
          fetchModelPricing fetcher s1 = (Success m2, s2) →
          strict m2 alias = Some p →
          hasCompleteTokenPricing (Some p) = true →
          run (getPricing fetcher model) s0
          = (Returned (toModelPricing p),
             {| fetcher_state := s2;
                calls := [CallFetchModelPricing (Success m1);
                          CallFetchModelPricing (Success m2)] |}))
     ∧ (∀ m2 s2 p s3,
          fetchModelPricing fetcher s1 = (Success m2, s2) →
          hasCompleteTokenPricing (strict m2 alias) = false →
          getModelPricing fetcher alias s2 = (Success (Some p), s3) →
          hasCompleteTokenPricing (Some p) = true →
          run (getPricing fetcher model) s0
          = (Returned (toModelPricing p),
             {| fetcher_state := s3;
                calls := [CallFetchModelPricing (Success m1);
                          CallFetchModelPricing (Success m2);
                          CallGetModelPricing alias (Success (Some p))] |})))
  ∧ (∀ s0 m1 s1 m2 s2 own p,
       fetchModelPricing fetcher s0 = (Success m1, s1) →
       fetchModelPricing fetcher s1 = (Success m2, s2) →
       m1 !! "gpt-5.3-codex" = Some own →
       hasCompleteTokenPricing (Some own) = false →
       m2 !! "gpt-5.2-codex" = Some p →
       hasCompleteTokenPricing (Some p) = true →
       (run (getPricing fetcher "gpt-5.3-codex") s0).1
       = Returned (toModelPricing p)).
Proof.
  split.
  - intros model alias s0 m1 s1 Halias H1 Hinc1. repeat split.
    + rewrite getPricing_calls. unfold_resolver. reduce_run. follow_run.
      destruct (fetchModelPricing fetcher s1) as [[m2|e] s2] eqn:H2;
        reduce_run; [|by eauto].
      split_run; by eauto.
    + intros m2 s2 H2 Hinc2.
      rewrite getPricing_calls. unfold_resolver. reduce_run. follow_run.
      split_run; by eauto.
    + intros m2 s2 p H2 Hp Hc. rewrite <- Hp in Hc.
      rewrite getPricing_run,
        (select_alias_strict_hit model alias s0 m1 s1 m2 s2) by done.
      rewrite Hp in *. by apply convertPricing_complete.
    + intros m2 s2 p s3 H2 Hinc2 H3 Hc.
      rewrite getPricing_run,
        (select_alias_relaxed_hit model alias s0 m1 s1 m2 s2 (Some p) s3)
        by done.
      by apply convertPricing_complete.
  - intros s0 m1 s1 m2 s2 own p H1 H2 Hown Hinc Hp Hc.
    apply firstPresent_bare in Hown, Hp.
    rewrite getPricing_run,
      (select_alias_strict_hit "gpt-5.3-codex" "gpt-5.2-codex" s0 m1 s1 m2 s2);
      [| done | done | by rewrite Hown | done | by rewrite Hp ].
    rewrite Hp. by rewrite convertPricing_complete.
Qed.

(** C3. Strict lookup.  The candidate keys are the model itself and then the
    model behind each provider prefix, in the order of
    [CODEX_PROVIDER_PREFIXES].  One strict lookup makes one batch fetch and
    returns the entry of the first candidate key the map has, whether that
    entry is complete or not, and null when the map has none of them.  With
    ["openai/gpt-4"] in the map and no ["gpt-4"], the lookup of ["gpt-4"]
    returns the prefixed entry, and [getPricing] converts it when it is
    complete. *)
Theorem strict_lookup_first_existing model s0 m s1 :
  fetchModelPricing fetcher s0 = (Success m, s1) →
  candidateKeys model
  = [model; "openai/" +:+ model; "azure/" +:+ model;
     "openrouter/openai/" +:+ model]
  ∧ ∃ found,
      run (getStrictPricing fetcher model) s0
      = (Returned found,
         {| fetcher_state := s1;
            calls := [CallFetchModelPricing (Success m)] |})
      ∧ (∀ pricing,
           found = Some pricing
           ↔ ∃ i key, candidateKeys model !! i = Some key
                      ∧ m !! key = Some pricing
                      ∧ ∀ j key', j < i → candidateKeys model !! j = Some key' →
                                  m !! key' = None)
      ∧ (found = None ↔ ∀ key, key ∈ candidateKeys model → m !! key = None)
      ∧ (model = "gpt-4" →
         m !! "gpt-4" = None →
         ∀ pricing,
           m !! "openai/gpt-4" = Some pricing →
           found = Some pricing
           ∧ (hasCompleteTokenPricing (Some pricing) = true →
              run (getPricing fetcher "gpt-4") s0
              = (Returned (toModelPricing pricing),
                 {| fetcher_state := s1;
                    calls := [CallFetchModelPricing (Success m)] |}))).
Proof.
  intros H. split; [apply candidateKeys_unfold|].
  exists (strict m model).
  split; [unfold_resolver; reduce_run; by follow_run|].
  split; [intros pricing; apply firstPresent_Some|].
  split; [apply firstPresent_None|].
  intros -> Hbare pricing Hprefixed.
  assert (strict m "gpt-4" = Some pricing) as Hs
    by (unfold candidateKeys, CODEX_PROVIDER_PREFIXES;
        cbn [map firstPresent]; rewrite Hbare;
        change ("openai/" +:+ "gpt-4") with "openai/gpt-4";
        by rewrite Hprefixed).
  split; [done|]. intros Hc.
  rewrite getPricing_run, (select_strict_hit "gpt-4" s0 m s1);
    [| done | by rewrite Hs].
  rewrite Hs. by apply convertPricing_complete.
Qed.

(** C4. Exact match.  When the batch map has a complete entry under the bare
    model name, [getPricing] returns after that one fetch, with the input and
    output costs of the entry times [MILLION], and with the cache-read cost of
    the entry times [MILLION] as cached-input cost when the entry has one. *)
Theorem exact_match model s0 m s1 p i o :
  fetchModelPricing fetcher s0 = (Success m, s1) →
  m !! model = Some p →
  input_cost_per_token p = Some i →
  output_cost_per_token p = Some o →
  ∃ r,
    run (getPricing fetcher model) s0
    = (Returned r,
       {| fetcher_state := s1; calls := [CallFetchModelPricing (Success m)] |})
    ∧ inputCostPerMToken r = PrimFloat.mul i MILLION
    ∧ outputCostPerMToken r = PrimFloat.mul o MILLION
    ∧ ∀ c, cache_read_input_token_cost p = Some c →
           cachedInputCostPerMToken r = PrimFloat.mul c MILLION.
Proof.
  intros H Hp Hi Ho.
  assert (hasCompleteTokenPricing (Some p) = true) as Hc
    by (cbn; by rewrite Hi, Ho).
  apply firstPresent_bare in Hp.
  exists (toModelPricing p). split.
  - rewrite getPricing_run, (select_strict_hit model s0 m s1);
      [| done | by rewrite Hp].
    rewrite Hp. by apply convertPricing_complete.
  - rewrite (toModelPricing_fields p i o) by done. cbn.
    repeat split. by intros c ->.
Qed.

(** C5. Total failure.  When every lookup the resolver makes is answered
    without a fetcher error and none of the answers is a complete entry (the
    strict lookup of the model, for an aliased model the strict and the
    relaxed lookup of the alias, and the relaxed lookup of the model),
    [getPricing] throws the error of line 102, whose message ends with the
    model name it was called with, not with the alias. *)
Theorem not_found_carries_model model s0 m1 s1 :
  fetchModelPricing fetcher s0 = (Success m1, s1) →
  hasCompleteTokenPricing (strict m1 model) = false →
  (∀ alias m2 s2 r3 s3 r4 s4,
     CODEX_MODEL_ALIASES_MAP !! model = Some alias →
     fetchModelPricing fetcher s1 = (Success m2, s2) →
     hasCompleteTokenPricing (strict m2 alias) = false →
     getModelPricing fetcher alias s2 = (Success r3, s3) →
     hasCompleteTokenPricing r3 = false →
     getModelPricing fetcher model s3 = (Success r4, s4) →
     hasCompleteTokenPricing r4 = false →
     run (getPricing fetcher model) s0
     = (Threw (NewError ("Pricing not found for model " +:+ model)),
        {| fetcher_state := s4;
           calls := [CallFetchModelPricing (Success m1);
                     CallFetchModelPricing (Success m2);
                     CallGetModelPricing alias (Success r3);
                     CallGetModelPricing model (Success r4)] |}))
  ∧ (∀ r4 s4,
       CODEX_MODEL_ALIASES_MAP !! model = None →
       getModelPricing fetcher model s1 = (Success r4, s4) →
       hasCompleteTokenPricing r4 = false →
       run (getPricing fetcher model) s0
       = (Threw (NewError ("Pricing not found for model " +:+ model)),
          {| fetcher_state := s4;
             calls := [CallFetchModelPricing (Success m1);
                       CallGetModelPricing model (Success r4)] |})).
Proof.
  intros H1 Hinc1. split.
  - intros alias m2 s2 r3 s3 r4 s4 Halias H2 Hinc2 H3 Hinc3 H4 Hinc4.
    rewrite getPricing_run,
      (select_alias_miss model alias s0 m1 s1 m2 s2 r3 s3 r4 s4) by done.
    rewrite Hinc4. by apply convertPricing_incomplete.
  - intros r4 s4 Halias H4 Hinc4.
    rewrite getPricing_run, (select_no_alias model s0 m1 s1 r4 s4) by done.
    rewrite Hinc4. by apply convertPricing_incomplete.
Qed.

(** A failed answer ends the run of lines 79-99 and is what it throws. *)
Lemma selectPricing_error model s0 before call after error :
  calls (run (selectPricing fetcher model) s0).2 = before ++ call :: after →
  callError call = Some error →
  after = [] ∧ (run (selectPricing fetcher model) s0).1 = Threw (Rethrown error).
Proof.
  unfold_resolver. reduce_run. split_run; intros Hlog Herror.
  all: repeat (destruct before as [|? before]; simplify_eq/=); done.
Qed.

(** What lines 79-99 leave in [pricing], when complete, is an entry of the
    answer to the last fetcher call. *)
Lemma selectPricing_source model s0 p w :
  run (selectPricing fetcher model) s0 = (Returned (Some p), w) →
  hasCompleteTokenPricing (Some p) = true →
  ∃ call, last (calls w) = Some call ∧ answersEntry call p.
Proof.
  intros Hrun Hc. revert Hrun. unfold_resolver. reduce_run. split_run.
  all: repeat match goal with
         | |- context [firstPresent ?m ?keys] =>
             let found := fresh "found" in
             remember (firstPresent m keys) as found eqn:Hfound;
             symmetry in Hfound
         end.
  all: intros [= Hp <-]; try subst; try congruence.
  all: eexists; (split; [reflexivity|]); cbn [answersEntry]; try done.
  all: match goal with
       | H : firstPresent _ _ = Some _ |- _ =>
           apply firstPresent_Some in H as (? & key & _ & ? & _); by exists key
       end.
Qed.

(** A returned record is the conversion of the selected, complete entry. *)
Lemma returned_is_conversion model s0 r w :
  run (getPricing fetcher model) s0 = (Returned r, w) →
  ∃ p, run (selectPricing fetcher model) s0 = (Returned (Some p), w)
       ∧ hasCompleteTokenPricing (Some p) = true
       ∧ r = toModelPricing p.
Proof.
  rewrite getPricing_run.
  destruct (run (selectPricing fetcher model) s0) as [[pricing|t] w'];
    [|discriminate].
  unfold convertPricing.
  destruct (hasCompleteTokenPricing pricing) eqn:Hc; [|discriminate].
  destruct pricing as [p|]; [|discriminate].
  cbn. intros [= <- <-]. by exists p.
Qed.

(** C6. Failure propagation.  Whenever a fetcher call of a resolution, batch
    fetch or relaxed lookup, at whatever step, is answered with a failure,
    that call is the last one of the resolution (nothing is retried, no
    further step is made) and [getPricing] throws the very error value of the
    answer. *)
Theorem fetcher_error_propagates model s0 before call after error :
  calls (run (getPricing fetcher model) s0).2 = before ++ call :: after →
  callError call = Some error →
  after = [] ∧ (run (getPricing fetcher model) s0).1 = Threw (Rethrown error).
Proof.
  rewrite getPricing_calls. intros Hlog Herror.
  destruct (selectPricing_error model s0 before call after error Hlog Herror)
    as [Hafter Hthrown].
  split; [done|]. rewrite getPricing_run.
  by destruct (run (selectPricing fetcher model) s0) as [[pricing|t] w];
    simplify_eq/=.
Qed.

(** C7. Cache-cost defaulting.  When the entry accepted at line 101 has an
    input and an output cost and no cache-read cost, the record returned has
    its cached-input cost equal to its input cost, both being the input cost
    of the entry times [MILLION]. *)
Theorem cache_cost_defaults model s0 p i o w :
  run (selectPricing fetcher model) s0 = (Returned (Some p), w) →
  input_cost_per_token p = Some i →
  output_cost_per_token p = Some o →
  cache_read_input_token_cost p = None →
  ∃ r, run (getPricing fetcher model) s0 = (Returned r, w)
       ∧ cachedInputCostPerMToken r = inputCostPerMToken r
       ∧ inputCostPerMToken r = PrimFloat.mul i MILLION.
Proof.
  intros Hrun Hi Ho Hcache. exists (toModelPricing p). split.
  - rewrite getPricing_run, Hrun. apply convertPricing_complete.
    cbn. by rewrite Hi, Ho.
  - rewrite (toModelPricing_fields p i o) by done. cbn. by rewrite Hcache.
Qed.

(** C8. No partial result.  A record returned by [getPricing] is the
    conversion of the entry lines 79-99 selected, that entry passed
    [hasCompleteTokenPricing], its input and output cost are present, and
    each of the three fields is a cost of that entry times [MILLION]; none of
    the three [toPerMillion] calls takes the literal [0]. *)
Theorem no_partial_result model s0 r w :
  run (getPricing fetcher model) s0 = (Returned r, w) →
  ∃ p i o,
    run (selectPricing fetcher model) s0 = (Returned (Some p), w)
    ∧ hasCompleteTokenPricing (Some p) = true
    ∧ input_cost_per_token p = Some i
    ∧ output_cost_per_token p = Some o
    ∧ r = {| inputCostPerMToken := PrimFloat.mul i MILLION;
             cachedInputCostPerMToken :=
               PrimFloat.mul (default i (cache_read_input_token_cost p)) MILLION;
             outputCostPerMToken := PrimFloat.mul o MILLION |}
    ∧ usesZeroDefault (input_cost_per_token p) None = false
    ∧ usesZeroDefault (cache_read_input_token_cost p)
                      (input_cost_per_token p) = false
    ∧ usesZeroDefault (output_cost_per_token p) None = false.
Proof.
  rewrite getPricing_run.
  destruct (run (selectPricing fetcher model) s0) as [[pricing|t] w'];
    [|discriminate].
  unfold convertPricing.
  destruct (hasCompleteTokenPricing pricing) eqn:Hc; [|discriminate].
  destruct (complete_inv pricing Hc) as (p & i & o & -> & Hi & Ho).
  cbn. intros [= <- <-]. exists p, i, o.
  rewrite (toModelPricing_fields p i o) by done.
  unfold usesZeroDefault. rewrite Hi, Ho. cbn.
  repeat split; try done. apply andb_false_r.
Qed.

(** C9. One entry.  A record returned by [getPricing] is the conversion of a
    single entry, and that entry was handed over by the fetcher in the answer
    to the last call of the resolution: all three fields are computed from
    it, none from the result of an earlier step. *)
Theorem result_from_one_entry model s0 r w :
  run (getPricing fetcher model) s0 = (Returned r, w) →
  ∃ call p,
    last (calls w) = Some call
    ∧ answersEntry call p
    ∧ hasCompleteTokenPricing (Some p) = true
    ∧ inputCostPerMToken r = toPerMillion (input_cost_per_token p) None
    ∧ cachedInputCostPerMToken r
      = toPerMillion (cache_read_input_token_cost p) (input_cost_per_token p)
    ∧ outputCostPerMToken r = toPerMillion (output_cost_per_token p) None.
Proof.
  intros Hrun.
  destruct (returned_is_conversion model s0 r w Hrun) as (p & Hsel & Hc & ->).
  destruct (selectPricing_source model s0 p w Hsel Hc) as (call & Hlast & Hans).
  by exists call, p.
Qed.

(** C10, as amended.  The alias table maps ["gpt-5-codex"] to ["gpt-5"] and
    ["gpt-5.3-codex"] to ["gpt-5.2-codex"].  When the strict lookup of
    ["gpt-5-codex"], over the bare key and the provider-prefixed keys, finds
    no complete entry (as when the map has none of the four keys) and the map
    has a complete entry under ["gpt-5"], [getPricing "gpt-5-codex"] returns
    the conversion of the ["gpt-5"] entry. *)
Theorem gpt5_codex_alias :
  CODEX_MODEL_ALIASES_MAP !! "gpt-5-codex" = Some "gpt-5"
  ∧ CODEX_MODEL_ALIASES_MAP !! "gpt-5.3-codex" = Some "gpt-5.2-codex"
  ∧ ∀ s0 m1 s1 m2 s2 p i o,
      fetchModelPricing fetcher s0 = (Success m1, s1) →
      (hasCompleteTokenPricing (strict m1 "gpt-5-codex") = false
       ∨ ∀ key, key ∈ candidateKeys "gpt-5-codex" → m1 !! key = None) →
      fetchModelPricing fetcher s1 = (Success m2, s2) →
      m2 !! "gpt-5" = Some p →
      input_cost_per_token p = Some i →
      output_cost_per_token p = Some o →
      run (getPricing fetcher "gpt-5-codex") s0
      = (Returned
           {| inputCostPerMToken := PrimFloat.mul i MILLION;
              cachedInputCostPerMToken :=
                PrimFloat.mul (default i (cache_read_input_token_cost p)) MILLION;
              outputCostPerMToken := PrimFloat.mul o MILLION |},
         {| fetcher_state := s2;
            calls := [CallFetchModelPricing (Success m1);
                      CallFetchModelPricing (Success m2)] |}).
Proof.
  split; [done|]. split; [done|].
  intros s0 m1 s1 m2 s2 p i o H1 Hmiss H2 Hp Hi Ho.
  assert (hasCompleteTokenPricing (strict m1 "gpt-5-codex") = false) as Hinc.
  { destruct Hmiss as [|Hnone]; [done|].
    apply firstPresent_None in Hnone. by rewrite Hnone. }
  assert (hasCompleteTokenPricing (Some p) = true) as Hc
    by (cbn; by rewrite Hi, Ho).
  apply firstPresent_bare in Hp.
  rewrite getPricing_run,
    (select_alias_strict_hit "gpt-5-codex" "gpt-5" s0 m1 s1 m2 s2);
    [| done | done | done | done | by rewrite Hp ].
  rewrite Hp, convertPricing_complete by done.
  by rewrite (toModelPricing_fields p i o).
Qed.

End Paths.

(** * Concrete runs *)

Lemma tie_break_rule_witness :
  run (selectPricing scriptedFetcher "gpt-5.3-codex") scriptRelaxedHit
  = (Returned (Some gpt5Entry),
     {| fetcher_state := [];
        calls := [CallFetchModelPricing (Success catalogLimitsOnly);
                  CallFetchModelPricing (Success catalogLimitsOnly);
                  CallGetModelPricing "gpt-5.2-codex" (Success None);
                  CallGetModelPricing "gpt-5.3-codex" (Success (Some gpt5Entry))] |})
  ∧ run (selectPricing scriptedFetcher "gpt-5.3-codex") scriptAllIncomplete
    = (Returned (Some (limitsEntry 128000%float)),
       {| fetcher_state := [];
          calls := [CallFetchModelPricing (Success catalogLimitsOnly);
                    CallFetchModelPricing (Success catalogLimitsOnly);
                    CallGetModelPricing "gpt-5.2-codex" (Success None);
                    CallGetModelPricing "gpt-5.3-codex"
                      (Success (Some (limitsEntry 128000%float)))] |})
  ∧ run (selectPricing scriptedFetcher "gpt-5.3-codex") scriptAliasRelaxedHit
    = (Returned (Some gpt52CodexEntry),
       {| fetcher_state := [ReplySingle (Success (Some gpt5Entry))];
          calls := [CallFetchModelPricing (Success catalogLimitsOnly);
                    CallFetchModelPricing (Success catalogLimitsOnly);
                    CallGetModelPricing "gpt-5.2-codex"
                      (Success (Some gpt52CodexEntry))] |}).
Proof.
  split; [|split].
  - destruct (tie_break_rule scriptedFetcher "gpt-5.3-codex" scriptRelaxedHit)
      as (_ & _ & _ & _ & Hmiss & _).
    exact (Hmiss "gpt-5.2-codex"
             catalogLimitsOnly (drop 1 scriptRelaxedHit)
             catalogLimitsOnly (drop 2 scriptRelaxedHit)
             None (drop 3 scriptRelaxedHit)
             (Some gpt5Entry) []
             eq_refl eq_refl eq_refl eq_refl eq_refl eq_refl eq_refl eq_refl).
  - destruct (tie_break_rule scriptedFetcher "gpt-5.3-codex" scriptAllIncomplete)
      as (_ & _ & _ & _ & Hmiss & _).
    exact (Hmiss "gpt-5.2-codex"
             catalogLimitsOnly (drop 1 scriptAllIncomplete)
             catalogLimitsOnly (drop 2 scriptAllIncomplete)
             None (drop 3 scriptAllIncomplete)
             (Some (limitsEntry 128000%float)) []
             eq_refl eq_refl eq_refl eq_refl eq_refl eq_refl eq_refl eq_refl).
  - destruct (tie_break_rule scriptedFetcher "gpt-5.3-codex" scriptAliasRelaxedHit)
      as (_ & _ & _ & Hrelaxed & _ & _).
    exact (Hrelaxed "gpt-5.2-codex"
             catalogLimitsOnly (drop 1 scriptAliasRelaxedHit)
             catalogLimitsOnly (drop 2 scriptAliasRelaxedHit)
             (Some gpt52CodexEntry) (drop 3 scriptAliasRelaxedHit)
             eq_refl eq_refl eq_refl eq_refl eq_refl eq_refl eq_refl).
Defined.

Lemma alias_fallback_witness :
  (run (getPricing (offlineFetcher catalogTest3 noRelaxed) "gpt-5.3-codex") ()).1
  = Returned (toModelPricing gpt52CodexEntry)
  ∧ run (getPricing scriptedFetcher "gpt-5.3-codex") scriptAliasRelaxedHit
    = (Returned (toModelPricing gpt52CodexEntry),
       {| fetcher_state := [ReplySingle (Success (Some gpt5Entry))];
          calls := [CallFetchModelPricing (Success catalogLimitsOnly);
                    CallFetchModelPricing (Success catalogLimitsOnly);
                    CallGetModelPricing "gpt-5.2-codex"
                      (Success (Some gpt52CodexEntry))] |}).
Proof.
  split.
  - destruct (alias_fallback (offlineFetcher catalogTest3 noRelaxed))
      as [_ Hexample].
    exact (Hexample () catalogTest3 () catalogTest3 ()
             (limitsEntry 128000%float) gpt52CodexEntry
             eq_refl eq_refl eq_refl eq_refl eq_refl eq_refl).
  - destruct (alias_fallback scriptedFetcher) as [Hgeneral _].
    destruct (Hgeneral "gpt-5.3-codex" "gpt-5.2-codex" scriptAliasRelaxedHit
                catalogLimitsOnly (drop 1 scriptAliasRelaxedHit)
                eq_refl eq_refl eq_refl) as (_ & _ & _ & Hrelaxed).
    exact (Hrelaxed catalogLimitsOnly (drop 2 scriptAliasRelaxedHit)
             gpt52CodexEntry (drop 3 scriptAliasRelaxedHit)
             eq_refl eq_refl eq_refl eq_refl).
Defined.

Lemma strict_lookup_first_existing_witness :
  run (getStrictPricing (offlineFetcher catalogPrefixedGpt4 noRelaxed) "gpt-4") ()
  = (Returned (Some (costEntry 3e-5%float 6e-5%float None)),
     {| fetcher_state := ();
        calls := [CallFetchModelPricing (Success catalogPrefixedGpt4)] |})
  ∧ run (getPricing (offlineFetcher catalogPrefixedGpt4 noRelaxed) "gpt-4") ()
    = (Returned (toModelPricing (costEntry 3e-5%float 6e-5%float None)),
       {| fetcher_state := ();
          calls := [CallFetchModelPricing (Success catalogPrefixedGpt4)] |})
  ∧ run (getStrictPricing (offlineFetcher catalogShadowedGpt4 noRelaxed) "gpt-4") ()
    = (Returned (Some (limitsEntry 8192%float)),
       {| fetcher_state := ();
          calls := [CallFetchModelPricing (Success catalogShadowedGpt4)] |}).
Proof.
  split; [|split].
  - destruct (strict_lookup_first_existing
                (offlineFetcher catalogPrefixedGpt4 noRelaxed)
                "gpt-4" () catalogPrefixedGpt4 () eq_refl)
      as (_ & found & Hrun & _ & _ & Hgpt4).
    destruct (Hgpt4 eq_refl eq_refl _ eq_refl) as [Hfound _].
    rewrite <- Hfound. exact Hrun.
  - destruct (strict_lookup_first_existing
                (offlineFetcher catalogPrefixedGpt4 noRelaxed)
                "gpt-4" () catalogPrefixedGpt4 () eq_refl)
      as (_ & found & _ & _ & _ & Hgpt4).
    destruct (Hgpt4 eq_refl eq_refl _ eq_refl) as [_ Hconverted].
    exact (Hconverted eq_refl).
  - destruct (strict_lookup_first_existing
                (offlineFetcher catalogShadowedGpt4 noRelaxed)
                "gpt-4" () catalogShadowedGpt4 () eq_refl)
      as (_ & found & Hrun & Hsome & _ & _).
    assert (found = Some (limitsEntry 8192%float)) as <-; [|exact Hrun].
    apply Hsome. exists 0, "gpt-4". repeat split. intros j key' Hj. lia.
Defined.

Lemma exact_match_witness :
  ∃ r,
    run (getPricing (offlineFetcher catalogTest1 noRelaxed) "gpt-5") ()
    = (Returned r,
       {| fetcher_state := ();
          calls := [CallFetchModelPricing (Success catalogTest1)] |})
    ∧ inputCostPerMToken r = PrimFloat.mul 1.25e-6%float MILLION
    ∧ outputCostPerMToken r = PrimFloat.mul 1e-5%float MILLION
    ∧ ∀ c, cache_read_input_token_cost gpt5Entry = Some c →
           cachedInputCostPerMToken r = PrimFloat.mul c MILLION.
Proof.
  exact (exact_match (offlineFetcher catalogTest1 noRelaxed) "gpt-5" ()
           catalogTest1 () gpt5Entry 1.25e-6%float 1e-5%float
           eq_refl eq_refl eq_refl eq_refl).
Defined.

Lemma not_found_carries_model_witness :
  run (getPricing scriptedFetcher "gpt-5.3-codex") scriptAllIncomplete
  = (Threw (NewError "Pricing not found for model gpt-5.3-codex"),
     {| fetcher_state := [];
        calls := [CallFetchModelPricing (Success catalogLimitsOnly);
                  CallFetchModelPricing (Success catalogLimitsOnly);
                  CallGetModelPricing "gpt-5.2-codex" (Success None);
                  CallGetModelPricing "gpt-5.3-codex"
                    (Success (Some (limitsEntry 128000%float)))] |})
  ∧ run (getPricing (offlineFetcher catalogEmpty noRelaxed) "o3") ()
    = (Threw (NewError "Pricing not found for model o3"),
       {| fetcher_state := ();
          calls := [CallFetchModelPricing (Success catalogEmpty);
                    CallGetModelPricing "o3" (Success None)] |}).
Proof.
  split.
  - destruct (not_found_carries_model scriptedFetcher "gpt-5.3-codex"
                scriptAllIncomplete catalogLimitsOnly
                (drop 1 scriptAllIncomplete) eq_refl eq_refl)
      as [Haliased _].
    exact (Haliased "gpt-5.2-codex"
             catalogLimitsOnly (drop 2 scriptAllIncomplete)
             None (drop 3 scriptAllIncomplete)
             (Some (limitsEntry 128000%float)) []
             eq_refl eq_refl eq_refl eq_refl eq_refl eq_refl eq_refl).
  - destruct (not_found_carries_model (offlineFetcher catalogEmpty noRelaxed)
                "o3" () catalogEmpty () eq_refl eq_refl)
      as [_ Hplain].
    exact (Hplain None () eq_refl eq_refl eq_refl).
Defined.

Lemma fetcher_error_propagates_witness :
  @nil (Call string) = []
  ∧ (run (getPricing scriptedFetcher "gpt-5.3-codex") scriptAliasRelaxedFails).1
    = Threw (Rethrown "ECONNRESET").
Proof.
  exact (fetcher_error_propagates scriptedFetcher "gpt-5.3-codex"
           scriptAliasRelaxedFails
           [CallFetchModelPricing (Success catalogLimitsOnly);
            CallFetchModelPricing (Success catalogLimitsOnly)]
           (CallGetModelPricing "gpt-5.2-codex" (Failure "ECONNRESET"))
           [] "ECONNRESET" eq_refl eq_refl).
Defined.

Lemma cache_cost_defaults_witness :
  ∃ r,
    run (getPricing (offlineFetcher catalogPrefixedGpt4 noRelaxed) "gpt-4") ()
    = (Returned r,
       {| fetcher_state := ();
          calls := [CallFetchModelPricing (Success catalogPrefixedGpt4)] |})
    ∧ cachedInputCostPerMToken r = inputCostPerMToken r
    ∧ inputCostPerMToken r = PrimFloat.mul 3e-5%float MILLION.
Proof.
  exact (cache_cost_defaults (offlineFetcher catalogPrefixedGpt4 noRelaxed)
           "gpt-4" () (costEntry 3e-5%float 6e-5%float None)
           3e-5%float 6e-5%float _ eq_refl eq_refl eq_refl eq_refl).
Defined.

Lemma no_partial_result_witness :
  ∃ p i o,
    run (selectPricing (offlineFetcher catalogTest1 noRelaxed) "gpt-5-codex") ()
    = (Returned (Some p),
       {| fetcher_state := ();
          calls := [CallFetchModelPricing (Success catalogTest1);
                    CallFetchModelPricing (Success catalogTest1)] |})
    ∧ hasCompleteTokenPricing (Some p) = true
    ∧ input_cost_per_token p = Some i
    ∧ output_cost_per_token p = Some o
    ∧ toModelPricing gpt5Entry
      = {| inputCostPerMToken := PrimFloat.mul i MILLION;
           cachedInputCostPerMToken :=
             PrimFloat.mul (default i (cache_read_input_token_cost p)) MILLION;
           outputCostPerMToken := PrimFloat.mul o MILLION |}
    ∧ usesZeroDefault (input_cost_per_token p) None = false
    ∧ usesZeroDefault (cache_read_input_token_cost p)
                      (input_cost_per_token p) = false
    ∧ usesZeroDefault (output_cost_per_token p) None = false.
Proof.
  exact (no_partial_result (offlineFetcher catalogTest1 noRelaxed)
           "gpt-5-codex" () (toModelPricing gpt5Entry) _ eq_refl).
Defined.

Lemma result_from_one_entry_witness :
  (run (getPricing (offlineFetcher catalogSplitFields noRelaxed)
          "gpt-5.3-codex") ()).1
  = Returned (toModelPricing (costEntry 1.5e-6%float 1.2e-5%float None))
  ∧ ∃ call p,
      last [CallFetchModelPricing (Err:=string) (Success catalogSplitFields);
            CallFetchModelPricing (Success catalogSplitFields)] = Some call
      ∧ answersEntry call p
      ∧ hasCompleteTokenPricing (Some p) = true
      ∧ PrimFloat.mul 1.5e-6%float MILLION
        = toPerMillion (input_cost_per_token p) None
      ∧ PrimFloat.mul 1.5e-6%float MILLION
        = toPerMillion (cache_read_input_token_cost p) (input_cost_per_token p)
      ∧ PrimFloat.mul 1.2e-5%float MILLION
        = toPerMillion (output_cost_per_token p) None.
Proof.
  split; [reflexivity|].
  exact (result_from_one_entry (offlineFetcher catalogSplitFields noRelaxed)
           "gpt-5.3-codex" ()
           (toModelPricing (costEntry 1.5e-6%float 1.2e-5%float None))
           _ eq_refl).
Defined.

Lemma gpt5_codex_alias_witness :
  run (getPricing (offlineFetcher catalogTest1 noRelaxed) "gpt-5-codex") ()
  = (Returned
       {| inputCostPerMToken := PrimFloat.mul 1.25e-6%float MILLION;
          cachedInputCostPerMToken := PrimFloat.mul 1.25e-7%float MILLION;
          outputCostPerMToken := PrimFloat.mul 1e-5%float MILLION |},
     {| fetcher_state := ();
        calls := [CallFetchModelPricing (Success catalogTest1);
                  CallFetchModelPricing (Success catalogTest1)] |}).
Proof.
  destruct (gpt5_codex_alias (offlineFetcher catalogTest1 noRelaxed))
    as (_ & _ & Hresolve).
  refine (Hresolve () catalogTest1 () catalogTest1 () gpt5Entry
            1.25e-6%float 1e-5%float eq_refl _ eq_refl eq_refl eq_refl eq_refl).
  right. intros key Hkey.
  repeat (apply elem_of_cons in Hkey as [->|Hkey]; [reflexivity|]).
  by apply elem_of_nil in Hkey.
Defined.

(** C10, as stated, fails: a catalog without the key ["gpt-5-codex"] and with
    a complete ["gpt-5"] entry can hold the model behind a provider prefix,
    and then the strict lookup finds that entry and its costs are returned,
    not those of ["gpt-5"]. *)
Lemma gpt5_codex_alias_counterexample :
  catalogPrefixedCodex !! "gpt-5-codex" = None
  ∧ catalogPrefixedCodex !! "gpt-5" = Some gpt5Entry
  ∧ hasCompleteTokenPricing (Some gpt5Entry) = true
  ∧ run (getPricing (offlineFetcher catalogPrefixedCodex noRelaxed)
           "gpt-5-codex") ()
    = (Returned (toModelPricing (costEntry 2e-6%float 8e-6%float None)),
       {| fetcher_state := ();
          calls := [CallFetchModelPricing (Success catalogPrefixedCodex)] |})
  ∧ toModelPricing (costEntry 2e-6%float 8e-6%float None)
    ≠ toModelPricing gpt5Entry.
Proof.
  repeat split; try reflexivity.
  intros H.
  apply (f_equal (λ r, PrimFloat.ltb (inputCostPerMToken r) 1.5%float)) in H.
  vm_compute in H. discriminate.
Qed.

(** The batch fetch fails at the first step, or at the strict lookup of the
    alias: the error is thrown as it is and the remaining replies stay unused. *)

Example batch_fetch_error_at_first_step :
  run (getPricing scriptedFetcher "gpt-5.3-codex")
      [ReplyBatch (Failure "ENOTFOUND"); ReplyBatch (Success catalogTest2)]
  = (Threw (Rethrown "ENOTFOUND"),
     {| fetcher_state := [ReplyBatch (Success catalogTest2)];
        calls := [CallFetchModelPricing (Failure "ENOTFOUND")] |}).
Proof. reflexivity. Qed.

Example batch_fetch_error_at_alias_step :
  run (getPricing scriptedFetcher "gpt-5.3-codex")
      [ReplyBatch (Success catalogLimitsOnly); ReplyBatch (Failure "ENOTFOUND");
       ReplySingle (Success (Some gpt5Entry))]
  = (Threw (Rethrown "ENOTFOUND"),
     {| fetcher_state := [ReplySingle (Success (Some gpt5Entry))];
        calls := [CallFetchModelPricing (Success catalogLimitsOnly);
                  CallFetchModelPricing (Failure "ENOTFOUND")] |}).
Proof. reflexivity. Qed.

(** * Further properties of the resolver *)

(** The alias table has the two entries of lines 11-12 and nothing else. *)
Lemma alias_table_inv model alias :
  CODEX_MODEL_ALIASES_MAP !! model = Some alias →
  (model = "gpt-5-codex" ∧ alias = "gpt-5")
  ∨ (model = "gpt-5.3-codex" ∧ alias = "gpt-5.2-codex").
Proof.
  change CODEX_MODEL_ALIASES_MAP
    with (<["gpt-5-codex":="gpt-5"]>
            (<["gpt-5.3-codex":="gpt-5.2-codex"]> (∅ : gmap string string))).
  rewrite !lookup_insert, lookup_empty.
  repeat case_decide; naive_solver.
Qed.

(** No alias is itself aliased. *)
Lemma alias_not_aliased model alias :
  CODEX_MODEL_ALIASES_MAP !! model = Some alias →
  CODEX_MODEL_ALIASES_MAP !! alias = None.
Proof. by intros [[-> ->]|[-> ->]]%alias_table_inv. Qed.

(** Name the answer of the next fetcher call when the answers are known not
    to depend on the state. *)
Ltac answer_fetch Hbatch :=
  match goal with
  | |- context [fetchModelPricing ?f ?s] =>
      let Hanswer := fresh "Hanswer" in
      pose proof (Hbatch s) as Hanswer;
      destruct (fetchModelPricing f s) as [? ?];
      cbn [fst] in Hanswer; rewrite Hanswer; clear Hanswer
  end.

Ltac answer_get Hsingle :=
  match goal with
  | |- context [getModelPricing ?f ?name ?s] =>
      let Hanswer := fresh "Hanswer" in
      pose proof (Hsingle name s) as Hanswer;
      destruct (getModelPricing f name s) as [? ?];
      cbn [fst] in Hanswer; rewrite Hanswer; clear Hanswer
  end.

Section Outcomes.
Context {Err St : Type}.
Variable fetcher : LiteLLMPricingFetcher Err St.

(** How lines 79-99 can end, read off the log. *)
Lemma selectPricing_outcome model s0 :
  match run (selectPricing fetcher model) s0 with
  | (Returned pricing, w) =>
      hasCompleteTokenPricing pricing = false →
      callKind <$> calls w = plannedCalls model
      ∧ Forall (λ c, callError c = None) (calls w)
      ∧ Forall (λ c, relaxedAnswerComplete c = false) (calls w)
  | (Threw (Rethrown error), w) =>
      ∃ call, last (calls w) = Some call ∧ callError call = Some error
  | (Threw (NewError _), _) => False
  end.
Proof.
  unfold plannedCalls. unfold_resolver. reduce_run. split_run.
  all: try (intros; congruence).
  all: try (eexists; split; reflexivity).
  all: intros _; split; [reflexivity|]; split; repeat constructor; done.
Qed.

(** The guard of line 101 throws nothing of the fetcher's. *)
Lemma convertPricing_outcome model pricing (w : World Err St) :
  convertPricing model pricing w
  = (if hasCompleteTokenPricing pricing
     then match pricing with
          | Some p => Returned (toModelPricing p)
          | None => Threw (NewError ("Pricing not found for model " +:+ model))
          end
     else Threw (NewError ("Pricing not found for model " +:+ model)), w).
Proof.
  unfold convertPricing.
  destruct (hasCompleteTokenPricing pricing); [|done]. by destruct pricing.
Qed.

(** X1. Whenever [getPricing] throws an error value of the fetcher, that value
    is the error of the answer to the last call it made: the resolver has no
    other source of such errors. *)
Theorem rethrown_error_is_last_answer model s0 error :
  (run (getPricing fetcher model) s0).1 = Threw (Rethrown error) →
  ∃ call, last (calls (run (getPricing fetcher model) s0).2) = Some call
          ∧ callError call = Some error.
Proof.
  rewrite getPricing_calls, getPricing_run.
  pose proof (selectPricing_outcome model s0) as Hsel.
  destruct (run (selectPricing fetcher model) s0) as [[pricing|[e|msg]] w];
    cbn [fst snd].
  - rewrite convertPricing_outcome.
    destruct (hasCompleteTokenPricing pricing); [|discriminate].
    by destruct pricing.
  - by intros [= ->].
  - done.
Qed.

(** X2. Whenever [getPricing] throws the error of line 102, the message is
    "Pricing not found for model " followed by the model it was called with,
    and by then every planned lookup has been made: the log is the whole of
    [plannedCalls model], no call failed, and no relaxed lookup was answered
    with a complete entry. *)
Theorem not_found_only_after_all_lookups model s0 message :
  (run (getPricing fetcher model) s0).1 = Threw (NewError message) →
  message = "Pricing not found for model " +:+ model
  ∧ callKind <$> calls (run (getPricing fetcher model) s0).2
    = plannedCalls model
  ∧ Forall (λ c, callError c = None)
           (calls (run (getPricing fetcher model) s0).2)
  ∧ Forall (λ c, relaxedAnswerComplete c = false)
           (calls (run (getPricing fetcher model) s0).2).
Proof.
  rewrite getPricing_calls, getPricing_run.
  pose proof (selectPricing_outcome model s0) as Hsel.
  destruct (run (selectPricing fetcher model) s0) as [[pricing|[e|msg]] w];
    cbn [fst snd]; [|discriminate|done].
  rewrite convertPricing_outcome.
  destruct (hasCompleteTokenPricing pricing) eqn:Hc.
  - destruct pricing; [discriminate|done].
  - intros [= <-]. split; [done|]. by apply Hsel.
Qed.

(** X3. The budget of one resolution.  [getPricing] always starts with a
    batch fetch, makes at most the four calls of [plannedCalls], at most two
    for a model that has no alias, and never asks the relaxed lookup for a
    name other than the model and its alias. *)
Theorem call_budget model s0 :
  (∃ answer rest,
     calls (run (getPricing fetcher model) s0).2
     = CallFetchModelPricing answer :: rest)
  ∧ (length (calls (run (getPricing fetcher model) s0).2)
     ≤ length (plannedCalls model))%nat
  ∧ (length (plannedCalls model) ≤ 4)%nat
  ∧ (CODEX_MODEL_ALIASES_MAP !! model = None →
     (length (calls (run (getPricing fetcher model) s0).2) ≤ 2)%nat)
  ∧ (∀ name answer,
       CallGetModelPricing name answer
       ∈ calls (run (getPricing fetcher model) s0).2 →
       name = model ∨ CODEX_MODEL_ALIASES_MAP !! model = Some name).
Proof.
  rewrite getPricing_calls. unfold plannedCalls.
  unfold_resolver. reduce_run. split_run.
  all: split; [by eauto|]; cbn [length app].
  all: repeat split; try lia; try done.
  all: intros name answer Hin; rewrite ?elem_of_cons, elem_of_nil in Hin.
  all: destruct_or?; try done; simplify_eq; auto.
Qed.

(** Two maps that agree on the keys searched give the same first entry. *)
Lemma firstPresent_agree (m m' : gmap string LiteLLMModelPricing) candidates :
  (∀ key, key ∈ candidates → m !! key = m' !! key) →
  firstPresent m candidates = firstPresent m' candidates.
Proof.
  induction candidates as [|candidate rest IH]; [done|]. intros Hagree. cbn.
  rewrite <- (Hagree candidate) by (apply elem_of_cons; by left).
  rewrite IH; [done|]. intros key Hkey. apply Hagree, elem_of_cons. by right.
Qed.

(** X4. The strict lookup sees the four candidate keys and nothing else.
    Two batch maps that agree on the candidate keys of a model give the same
    strict result; so adding, replacing or deleting an entry under any other
    key does not change it. *)
Theorem strict_lookup_local model s m s1 s' m' s1' :
  fetchModelPricing fetcher s = (Success m, s1) →
  fetchModelPricing fetcher s' = (Success m', s1') →
  (∀ key, key ∈ candidateKeys model → m !! key = m' !! key)
  ∨ (∃ key entry, (key ∉ candidateKeys model) ∧ m' = <[key:=entry]> m)
  ∨ (∃ key, (key ∉ candidateKeys model) ∧ m' = delete key m) →
  (run (getStrictPricing fetcher model) s).1
  = (run (getStrictPricing fetcher model) s').1.
Proof.
  intros H H' Hrel. unfold_resolver. reduce_run. follow_run.
  f_equal. apply firstPresent_agree. intros key Hkey.
  destruct Hrel as [Hagree|[(other & entry & Hother & ->)|(other & Hother & ->)]].
  - by apply Hagree.
  - rewrite lookup_insert_ne; [done|]. by intros ->.
  - rewrite lookup_delete_ne; [done|]. by intros ->.
Qed.

(** X5. Alias transparency.  With a fetcher whose answers do not depend on
    its state, a model of the alias table that has no complete strict result
    of its own is priced as its alias: whenever [getPricing] returns a record
    for the alias, it returns the same record for the model. *)
Theorem alias_transparency model alias batchAnswer singleAnswer :
  (∀ s, (fetchModelPricing fetcher s).1 = batchAnswer) →
  (∀ name s, (getModelPricing fetcher name s).1 = singleAnswer name) →
  CODEX_MODEL_ALIASES_MAP !! model = Some alias →
  (∀ m, batchAnswer = Success m →
        hasCompleteTokenPricing (firstPresent m (candidateKeys model)) = false) →
  ∀ s s' r,
    (run (getPricing fetcher alias) s).1 = Returned r →
    (run (getPricing fetcher model) s').1 = Returned r.
Proof.
  intros Hbatch Hsingle Halias Hinc s s' r.
  pose proof (alias_not_aliased _ _ Halias) as Hnone.
  rewrite !getPricing_run. unfold_resolver. reduce_run.
  destruct batchAnswer as [m|e];
    [specialize (Hinc m eq_refl)|by repeat (answer_fetch Hbatch; reduce_run)].
  destruct (hasCompleteTokenPricing (firstPresent m (candidateKeys alias)))
    eqn:Hstrict;
    destruct (singleAnswer alias) as [value|e] eqn:Hrelaxed;
    try destruct (hasCompleteTokenPricing value) eqn:Hvalue.
  all: repeat (first [ answer_fetch Hbatch | answer_get Hsingle
                     | rewrite Hinc | rewrite Halias | rewrite Hnone
                     | rewrite Hstrict | rewrite Hrelaxed | rewrite Hvalue ];
               reduce_run).
  all: try done.
  all: try by destruct (firstPresent m (candidateKeys alias)).
  by destruct value.
Qed.

(** X6. Zero is a cost, not a missing value.  An entry under the bare model
    name whose input and output costs are present is accepted after one fetch
    also when they are 0, and is then priced 0; an explicit cache-read cost of
    0 is kept as the cached-input cost and not replaced by the input cost. *)
Theorem zero_cost_is_a_cost model s0 m s1 p i o :
  fetchModelPricing fetcher s0 = (Success m, s1) →
  m !! model = Some p →
  input_cost_per_token p = Some i →
  output_cost_per_token p = Some o →
  ∃ r,
    run (getPricing fetcher model) s0
    = (Returned r,
       {| fetcher_state := s1; calls := [CallFetchModelPricing (Success m)] |})
    ∧ (i = 0%float → inputCostPerMToken r = 0%float)
    ∧ (o = 0%float → outputCostPerMToken r = 0%float)
    ∧ (cache_read_input_token_cost p = Some 0%float →
       cachedInputCostPerMToken r = 0%float)
    ∧ (cache_read_input_token_cost p = None → i = 0%float →
       cachedInputCostPerMToken r = 0%float).
Proof.
  intros H Hp Hi Ho.
  assert (hasCompleteTokenPricing (Some p) = true) as Hc
    by (cbn; by rewrite Hi, Ho).
  apply firstPresent_bare in Hp.
  exists (toModelPricing p). split.
  - rewrite getPricing_run, (select_strict_hit fetcher model s0 m s1);
      [| done | by rewrite Hp].
    rewrite Hp. by apply convertPricing_complete.
  - rewrite (toModelPricing_fields p i o) by done. cbn.
    repeat split; try (by intros ->); try (by intros -> ->).
Qed.

(** X7. An incomplete entry under the bare name shadows the provider
    prefixes.  When the batch map has an incomplete entry filed under the bare
    name of a model without alias, the strict lookup stops at it: whatever the
    map holds under the prefixed keys, [getPricing] goes on to the relaxed
    lookup of the model, and when that finds no complete entry it throws the
    error of line 102. *)
Theorem incomplete_bare_entry_shadows_prefixed model s0 m s1 own r s2 :
  CODEX_MODEL_ALIASES_MAP !! model = None →
  fetchModelPricing fetcher s0 = (Success m, s1) →
  m !! model = Some own →
  hasCompleteTokenPricing (Some own) = false →
  getModelPricing fetcher model s1 = (Success r, s2) →
  (hasCompleteTokenPricing r = false →
   run (getPricing fetcher model) s0
   = (Threw (NewError ("Pricing not found for model " +:+ model)),
      {| fetcher_state := s2;
         calls := [CallFetchModelPricing (Success m);
                   CallGetModelPricing model (Success r)] |}))
  ∧ (∀ p, r = Some p →
          hasCompleteTokenPricing (Some p) = true →
          run (getPricing fetcher model) s0
          = (Returned (toModelPricing p),
             {| fetcher_state := s2;
                calls := [CallFetchModelPricing (Success m);
                          CallGetModelPricing model (Success (Some p))] |})).
Proof.
  intros Halias H1 Hown Hinc H2. apply firstPresent_bare in Hown.
  rewrite getPricing_run, (select_no_alias fetcher model s0 m s1 r s2);
    [| done | done | by rewrite Hown | done ].
  split.
  - intros Hr. rewrite Hr. apply convertPricing_incomplete. by rewrite Hown.
  - intros p -> Hp. rewrite Hp. by apply convertPricing_complete.
Qed.

(** The text after a fixed prefix can be read back. *)
Lemma append_inj_r (prefix a b : string) :
  prefix +:+ a = prefix +:+ b → a = b.
Proof.
  induction prefix as [|c prefix IH]; [done|].
  intros [= H]. by apply IH.
Qed.

(** X8. The error of line 102 names its model.  When two resolutions, of
    whatever models and from whatever fetcher states, both throw that error
    with the same message, they were resolutions of the same model. *)
Theorem not_found_message_names_model model1 s1 model2 s2 message :
  (run (getPricing fetcher model1) s1).1 = Threw (NewError message) →
  (run (getPricing fetcher model2) s2).1 = Threw (NewError message) →
  model1 = model2.
Proof.
  assert (∀ model s,
            (run (getPricing fetcher model) s).1 = Threw (NewError message) →
            message = "Pricing not found for model " +:+ model) as Hshape.
  { intros model s. rewrite getPricing_run.
    pose proof (selectPricing_outcome model s) as Hsel.
    destruct (run (selectPricing fetcher model) s) as [[pricing|[e|msg]] w];
      cbn [fst]; [|discriminate|done].
    rewrite convertPricing_outcome.
    destruct (hasCompleteTokenPricing pricing); [|by intros [= <-]].
    destruct pricing; [discriminate|by intros [= <-]]. }
  intros H1%Hshape H2%Hshape. rewrite H1 in H2.
  by apply append_inj_r in H2.
Qed.

End Outcomes.

(** ** Concrete runs for the further properties *)

Lemma rethrown_error_is_last_answer_witness :
  ∃ call,
    last (calls (run (getPricing scriptedFetcher "gpt-5.3-codex")
                     scriptAliasRelaxedFails).2) = Some call
    ∧ callError call = Some "ECONNRESET".
Proof.
  exact (rethrown_error_is_last_answer scriptedFetcher "gpt-5.3-codex"
           scriptAliasRelaxedFails "ECONNRESET" eq_refl).
Defined.

Lemma not_found_only_after_all_lookups_witness :
  callKind <$> calls (run (getPricing scriptedFetcher "gpt-5.3-codex")
                          scriptAllIncomplete).2
  = [FetchModelPricing; FetchModelPricing;
     GetModelPricing "gpt-5.2-codex"; GetModelPricing "gpt-5.3-codex"].
Proof.
  exact (proj1 (proj2 (not_found_only_after_all_lookups scriptedFetcher
                         "gpt-5.3-codex" scriptAllIncomplete
                         "Pricing not found for model gpt-5.3-codex" eq_refl))).
Defined.

Lemma strict_lookup_local_witness :
  (run (getStrictPricing scriptedFetcher "gpt-5")
       [ReplyBatch (Success catalogTest1)]).1
  = (run (getStrictPricing scriptedFetcher "gpt-5")
         [ReplyBatch (Success catalogTest2)]).1.
Proof.
  refine (strict_lookup_local scriptedFetcher "gpt-5"
            [ReplyBatch (Success catalogTest1)] catalogTest1 []
            [ReplyBatch (Success catalogTest2)] catalogTest2 []
            eq_refl eq_refl _).
  left. intros key Hkey.
  repeat (apply elem_of_cons in Hkey as [->|Hkey]; [reflexivity|]).
  by apply elem_of_nil in Hkey.
Defined.

Lemma alias_transparency_witness :
  (run (getPricing (offlineFetcher catalogTest3 noRelaxed) "gpt-5.3-codex") ()).1
  = Returned (toModelPricing gpt52CodexEntry).
Proof.
  refine (alias_transparency (offlineFetcher catalogTest3 noRelaxed)
            "gpt-5.3-codex" "gpt-5.2-codex"
            (Success catalogTest3) (λ name, Success (noRelaxed name))
            _ _ eq_refl _ () () (toModelPricing gpt52CodexEntry) eq_refl).
  - intros s. reflexivity.
  - intros name s. reflexivity.
  - intros m [= <-]. reflexivity.
Defined.

Lemma zero_cost_is_a_cost_witness :
  ∃ r,
    run (getPricing (offlineFetcher catalogFree noRelaxed) "gpt-oss") ()
    = (Returned r,
       {| fetcher_state := ();
          calls := [CallFetchModelPricing (Success catalogFree)] |})
    ∧ inputCostPerMToken r = 0%float
    ∧ outputCostPerMToken r = 0%float
    ∧ cachedInputCostPerMToken r = 0%float.
Proof.
  destruct (zero_cost_is_a_cost (offlineFetcher catalogFree noRelaxed)
              "gpt-oss" () catalogFree () (costEntry 0%float 0%float None)
              0%float 0%float eq_refl eq_refl eq_refl eq_refl)
    as (r & Hrun & Hinput & Houtput & _ & Hcached).
  exists r. split; [exact Hrun|]. split; [exact (Hinput eq_refl)|].
  split; [exact (Houtput eq_refl)|exact (Hcached eq_refl eq_refl)].
Defined.

Lemma incomplete_bare_entry_shadows_prefixed_witness :
  run (getPricing (offlineFetcher catalogShadowedGpt4 noRelaxed) "gpt-4") ()
  = (Threw (NewError "Pricing not found for model gpt-4"),
     {| fetcher_state := ();
        calls := [CallFetchModelPricing (Success catalogShadowedGpt4);
                  CallGetModelPricing "gpt-4" (Success None)] |}).
Proof.
  exact (proj1 (incomplete_bare_entry_shadows_prefixed
                  (offlineFetcher catalogShadowedGpt4 noRelaxed) "gpt-4"
                  () catalogShadowedGpt4 () (limitsEntry 8192%float) None ()
                  eq_refl eq_refl eq_refl eq_refl eq_refl) eq_refl).
Defined.

Lemma not_found_message_names_model_witness :
  "gpt-5.3-codex" = "gpt-5.3-codex".
Proof.
  exact (not_found_message_names_model scriptedFetcher
           "gpt-5.3-codex" scriptAllIncomplete
           "gpt-5.3-codex"
           [ReplyBatch (Success catalogEmpty); ReplyBatch (Success catalogEmpty);
            ReplySingle (Success None); ReplySingle (Success None)]
           "Pricing not found for model gpt-5.3-codex" eq_refl eq_refl).
Defined.
